(** * reset_password.py: a command-line driver around the Firebase Admin SDK

    The script parses its command line, initialises the Admin SDK from a
    service-account file, optionally looks the target user up, and then
    overwrites the user's password.  Everything it does is a sequence of
    calls into the SDK, [print]s and [sys.exit]s, so the embedding is a
    writer monad over a trace of observable events, with Python's three
    ways of leaving a block (normal return, a raised exception,
    [SystemExit]) as the outcome.  The SDK, the file system and argparse's
    tokeniser are the environment: the SDK and the file system are a record
    of oracles ([World]), the command line is the list of option
    occurrences argparse recognised. *)

From Stdlib Require Import Ascii String ZArith List.
From stdpp Require Import gmap strings list.

Open Scope string_scope.
Open Scope Z_scope.

(** ** Python values and exceptions *)

(** The values that end up in the dictionary built by [get_user_info]. *)
Inductive PyVal :=
| PyNone
| PyBool (b : bool)
| PyStr (s : string).

(** [str(v)], as an f-string renders a value. *)
Definition py_str (v : PyVal) : string :=
  match v with
  | PyNone => "None"
  | PyBool true => "True"
  | PyBool false => "False"
  | PyStr s => s
  end.

Definition of_opt (o : option string) : PyVal :=
  match o with
  | Some s => PyStr s
  | None => PyNone
  end.

(** The exceptions that can be raised inside the script.  All of them are
    subclasses of [Exception]; [SystemExit], which is not, is an outcome of
    its own below.  [OtherException] stands for every other [Exception]
    the SDK raises (ValueError, FirebaseError, ...), carrying [str(e)]. *)
Inductive exn :=
| FileNotFoundError (msg : string)
| UserNotFoundError (msg : string)
| KeyError (key : string)
| OtherException (msg : string).

(** [str(e)]. *)
Definition exn_str (e : exn) : string :=
  match e with
  | FileNotFoundError msg => msg
  | UserNotFoundError msg => msg
  | KeyError key => "'" ++ key ++ "'"
  | OtherException msg => msg
  end.

(** [s * n] on strings. *)
Fixpoint str_mul (s : string) (n : nat) : string :=
  match n with
  | O => ""
  | S n' => s ++ str_mul s n'
  end.

(** ** The environment *)

(** [auth.UserRecord], restricted to the attributes the script reads. *)
Record UserRecord := {
  uid : string;
  email : option string;
  display_name : option string;
  disabled : bool;
  email_verified : bool
}.

(** What a call into the environment does: return a value or raise. *)
Inductive PyResult (A : Type) :=
| Ok (a : A)
| Err (e : exn).
Arguments Ok {A} a.
Arguments Err {A} e.

(** The file system and the SDK, as the script sees them. *)
Record World := {
  path_exists : string -> bool;                       (* Path(p).exists() *)
  Certificate : string -> PyResult string;            (* credentials.Certificate(p) *)
  initialize_app : string -> PyResult unit;           (* firebase_admin.initialize_app(cred) *)
  get_user : string -> PyResult UserRecord;           (* auth.get_user(uid) *)
  update_user : string -> string -> PyResult UserRecord (* auth.update_user(uid, password=pw) *)
}.

(** ** Observable events *)

Inductive Event :=
| EvPrint (line : string)           (* print(line) *)
| EvUsage (msg : string)            (* argparse's own help or usage error *)
| EvPathExists (p : string)
| EvCertificate (p : string)
| EvInitializeApp (cred : string)
| EvGetUser (user : string)
| EvUpdateUser (user pw : string).

Definition is_lookup_call (ev : Event) : bool :=
  match ev with EvGetUser _ => true | _ => false end.

Definition is_update_call (ev : Event) : bool :=
  match ev with EvUpdateUser _ _ => true | _ => false end.

(** A user operation is a lookup or an update. *)
Definition is_user_op (ev : Event) : bool :=
  is_lookup_call ev || is_update_call ev.

(** Every call into the environment, as opposed to console output. *)
Definition is_call (ev : Event) : bool :=
  match ev with EvPrint _ | EvUsage _ => false | _ => true end.

Definition user_ops (t : list Event) : list Event := List.filter is_user_op t.
Definition update_calls (t : list Event) : list Event := List.filter is_update_call t.
Definition lookup_calls (t : list Event) : list Event := List.filter is_lookup_call t.
Definition calls (t : list Event) : list Event := List.filter is_call t.

(** The lines written by [print], in order. *)
Fixpoint printed (t : list Event) : list string :=
  match t with
  | [] => []
  | EvPrint s :: t' => s :: printed t'
  | _ :: t' => printed t'
  end.

(** ** The monad *)

(** How a block of Python is left. *)
Inductive Outcome (A : Type) :=
| Return (a : A)
| Raise (e : exn)
| Exit (code : Z).
Arguments Return {A} a.
Arguments Raise {A} e.
Arguments Exit {A} code.

(** A computation: the events it produced and how it ended. *)
Definition Prog (A : Type) : Type := list Event * Outcome A.

Definition ret {A} (a : A) : Prog A := ([], Return a).

Definition bind {A B} (m : Prog A) (k : A -> Prog B) : Prog B :=
  match m with
  | (t, Return a) => let (t', o) := k a in ((t ++ t')%list, o)
  | (t, Raise e) => (t, Raise e)
  | (t, Exit c) => (t, Exit c)
  end.

Notation "'let*' x ':=' m 'in' k" := (bind m (fun x => k))
  (at level 10, x name, m at level 100, k at level 200, only parsing).
Notation "m ';;' k" := (bind m (fun _ => k))
  (at level 100, k at level 200, right associativity, only parsing).

Definition emit (ev : Event) : Prog unit := ([ev], Return tt).
Definition print (line : string) : Prog unit := emit (EvPrint line).
Definition raise {A} (e : exn) : Prog A := ([], Raise e).
Definition sys_exit {A} (code : Z) : Prog A := ([], Exit code).

(** A call into the environment: it is recorded, then returns or raises. *)
Definition call {A} (ev : Event) (r : PyResult A) : Prog A :=
  match r with
  | Ok a => ([ev], Return a)
  | Err e => ([ev], Raise e)
  end.

(** [try: body  except Exception as e: handler e].  Every [exn] is an
    [Exception]; [SystemExit] is not and passes through. *)
Definition try_except {A} (body : Prog A) (handler : exn -> Prog A) : Prog A :=
  match body with
  | (t, Raise e) => let (t', o) := handler e in ((t ++ t')%list, o)
  | other => other
  end.

Definition trace {A} (m : Prog A) : list Event := fst m.
Definition outcome {A} (m : Prog A) : Outcome A := snd m.

(** The status the process ends with: 0 when the script runs off its end,
    the argument of [sys.exit], 1 for an uncaught exception. *)
Definition exit_status {A} (m : Prog A) : Z :=
  match outcome m with
  | Return _ => 0
  | Raise _ => 1
  | Exit c => c
  end.

(** ** The script *)

(** *** Argument parsing

    The parser is declared with four options (and argparse's implicit
    [-h/--help]).  The command line is taken as argparse has recognised it:
    a list of option occurrences, in order. *)
Inductive Occurrence :=
| OptUserId (v : string)        (* -u V, --user-id V *)
| OptCredentials (v : string)   (* -c V, --credentials V *)
| OptPassword (v : string)      (* -p V, --password V *)
| OptShowUserInfo               (* --show-user-info *)
| OptHelp.                      (* -h, --help *)

(** The namespace while it is being filled: the required options have no
    default, [password] defaults to its literal, the flag to [False]. *)
Record Partial := {
  p_user_id : option string;
  p_credentials : option string;
  p_password : string;
  p_show_user_info : bool
}.

Definition defaults : Partial :=
  {| p_user_id := None;
     p_credentials := None;
     p_password := "password123";
     p_show_user_info := false |}.

(** [args], once [parse_args] has returned. *)
Record Namespace := {
  user_id : string;
  credentials : string;
  password : string;
  show_user_info : bool
}.

(** Each occurrence stores its value (the last one wins); help prints and
    exits with status 0 as soon as it is met. *)
Fixpoint consume (argv : list Occurrence) (ns : Partial) : Prog Partial :=
  match argv with
  | [] => ret ns
  | OptUserId v :: rest =>
      consume rest {| p_user_id := Some v;
                      p_credentials := p_credentials ns;
                      p_password := p_password ns;
                      p_show_user_info := p_show_user_info ns |}
  | OptCredentials v :: rest =>
      consume rest {| p_user_id := p_user_id ns;
                      p_credentials := Some v;
                      p_password := p_password ns;
                      p_show_user_info := p_show_user_info ns |}
  | OptPassword v :: rest =>
      consume rest {| p_user_id := p_user_id ns;
                      p_credentials := p_credentials ns;
                      p_password := v;
                      p_show_user_info := p_show_user_info ns |}
  | OptShowUserInfo :: rest =>
      consume rest {| p_user_id := p_user_id ns;
                      p_credentials := p_credentials ns;
                      p_password := p_password ns;
                      p_show_user_info := true |}
  | OptHelp :: _ => emit (EvUsage "help") ;; sys_exit 0
  end.

(** [parser.parse_args()]: a required option that is missing is a usage
    error, which argparse reports with status 2. *)
Definition parse_args (argv : list Occurrence) : Prog Namespace :=
  let* ns := consume argv defaults in
  match p_user_id ns, p_credentials ns with
  | Some u, Some c =>
      ret {| user_id := u;
             credentials := c;
             password := p_password ns;
             show_user_info := p_show_user_info ns |}
  | _, _ =>
      emit (EvUsage "the following arguments are required") ;; sys_exit 2
  end.

(** *** initialize_firebase *)
Definition initialize_firebase (w : World) (credentials_path : string) : Prog unit :=
  try_except
    (let* found := call (EvPathExists credentials_path)
                        (Ok (path_exists w credentials_path)) in
     (if negb found
      then raise (FileNotFoundError ("Credentials file not found: " ++ credentials_path))
      else ret tt) ;;
     let* cred := call (EvCertificate credentials_path)
                       (Certificate w credentials_path) in
     call (EvInitializeApp cred) (initialize_app w cred) ;;
     print "✅ Firebase Admin SDK initialized successfully")
    (fun e =>
       print ("❌ Error initializing Firebase: " ++ exn_str e) ;;
       sys_exit 1).

(** *** reset_user_password

    [new_password] has the default ["password123"]; [None] is a call that
    leaves the argument out. *)
Definition reset_user_password (w : World) (user_id : string)
    (new_password : option string) : Prog bool :=
  let new_password := default "password123" new_password in
  try_except
    (call (EvUpdateUser user_id new_password) (update_user w user_id new_password) ;;
     print ("✅ Password successfully reset for user: " ++ user_id) ;;
     ret true)
    (fun e =>
       match e with
       | UserNotFoundError _ =>
           print ("❌ User not found: " ++ user_id) ;;
           ret false
       | _ =>
           print ("❌ Error resetting password for user " ++ user_id ++ ": " ++ exn_str e) ;;
           ret false
       end).

(** *** get_user_info

    Returns the dictionary of profile fields, or [None]. *)
Definition get_user_info (w : World) (user_id : string)
    : Prog (option (gmap string PyVal)) :=
  try_except
    (let* user := call (EvGetUser user_id) (get_user w user_id) in
     ret (Some (<["uid" := PyStr (uid user)]>
               (<["email" := of_opt (email user)]>
               (<["display_name" := of_opt (display_name user)]>
               (<["disabled" := PyBool (disabled user)]>
               (<["email_verified" := PyBool (email_verified user)]> ∅)))))))
    (fun e =>
       match e with
       | UserNotFoundError _ => ret None
       | _ =>
           print ("❌ Error getting user info: " ++ exn_str e) ;;
           ret None
       end).

(** [if user_info:] is false on [None] and on an empty dictionary. *)
Definition truthy (d : option (gmap string PyVal)) : bool :=
  match d with
  | None => false
  | Some m => negb (bool_decide (m = ∅))
  end.

(** [d[key]]: a missing key raises [KeyError]; so does subscripting what
    is not a dictionary, which the guard [if user_info:] excludes. *)
Definition getitem (d : option (gmap string PyVal)) (key : string) : Prog PyVal :=
  match d with
  | Some m =>
      match m !! key with
      | Some v => ret v
      | None => raise (KeyError key)
      end
  | None => raise (OtherException "'NoneType' object is not subscriptable")
  end.

(** *** main *)
Definition main (w : World) (argv : list Occurrence) : Prog unit :=
  let* args := parse_args argv in
  print "🔥 Firebase Password Reset Tool" ;;
  print (str_mul "=" 40) ;;
  initialize_firebase w (credentials args) ;;
  (if show_user_info args
   then
     print (String "010" ("📋 Getting user information for: " ++ user_id args)) ;;
     let* user_info := get_user_info w (user_id args) in
     if truthy user_info
     then
       let* v := getitem user_info "email" in
       print ("  Email: " ++ py_str v) ;;
       let* v := getitem user_info "display_name" in
       print ("  Display Name: " ++ py_str v) ;;
       let* v := getitem user_info "email_verified" in
       print ("  Email Verified: " ++ py_str v) ;;
       let* v := getitem user_info "disabled" in
       print ("  Account Disabled: " ++ py_str v)
     else
       print ("❌ User " ++ user_id args ++ " not found") ;;
       sys_exit 1
   else ret tt) ;;
  print (String "010" ("🔐 Resetting password for user: " ++ user_id args)) ;;
  let* success := reset_user_password w (user_id args) (Some (password args)) in
  if success : bool
  then
    print "✅ Password reset completed successfully!" ;;
    print ("   New password: " ++ password args)
  else
    print "❌ Password reset failed" ;;
    sys_exit 1.

(** ** Vocabulary for the statements *)

(** The initialisation step goes through: the file is there, the
    certificate loads and the application is created. *)
Definition init_succeeds (w : World) (path : string) : bool :=
  path_exists w path &&
  match Certificate w path with
  | Ok cred => match initialize_app w cred with Ok _ => true | Err _ => false end
  | Err _ => false
  end.

Definition user_exists (w : World) (user : string) : bool :=
  match get_user w user with Ok _ => true | Err _ => false end.

(** The optional lookup does not stop the run. *)
Definition lookup_passes (w : World) (args : Namespace) : bool :=
  if show_user_info args then user_exists w (user_id args) else true.

Definition update_succeeds (w : World) (user pw : string) : bool :=
  match update_user w user pw with Ok _ => true | Err _ => false end.

Definition is_not_found (e : exn) : bool :=
  match e with UserNotFoundError _ => true | _ => false end.

(** The value of [-p/--password] the command line supplies, if any: the
    last occurrence. *)
Fixpoint supplied_password (argv : list Occurrence) : option string :=
  match argv with
  | [] => None
  | OptPassword v :: rest =>
      match supplied_password rest with
      | Some v' => Some v'
      | None => Some v
      end
  | _ :: rest => supplied_password rest
  end.

Definition omits_password (argv : list Occurrence) : bool :=
  forallb (fun o => match o with OptPassword _ => false | _ => true end) argv.

(** The calls of a complete run, in the order Parse, Initialize, optional
    Lookup, Update. *)
Definition plan (args : Namespace) (cred : string) : list Event :=
  ([EvPathExists (credentials args);
    EvCertificate (credentials args);
    EvInitializeApp cred] ++
   (if show_user_info args then [EvGetUser (user_id args)] else []) ++
   [EvUpdateUser (user_id args) (password args)])%list.

(** The console output up to and including a successful initialisation. *)
Definition preamble : list string :=
  ["🔥 Firebase Password Reset Tool";
   str_mul "=" 40;
   "✅ Firebase Admin SDK initialized successfully"].

(** ** The runs of [main]

    The script has no loop, so a run that gets past the parser is one of
    six straight lines.  [Run w args m] lists them with their traces; it is
    shown below to describe [main] exactly. *)

Definition banner : list Event :=
  [EvPrint "🔥 Firebase Password Reset Tool"; EvPrint (str_mul "=" 40)].

Definition init_events (path cred : string) : list Event :=
  [EvPathExists path; EvCertificate path; EvInitializeApp cred;
   EvPrint "✅ Firebase Admin SDK initialized successfully"].

Definition getting_line (user : string) : string :=
  String "010" ("📋 Getting user information for: " ++ user).

Definition resetting_line (user : string) : string :=
  String "010" ("🔐 Resetting password for user: " ++ user).

Definition getting (user : string) : Event := EvPrint (getting_line user).
Definition resetting (user : string) : Event := EvPrint (resetting_line user).

(** The four profile lines, in the order [main] prints them. *)
Definition profile_lines (r : UserRecord) : list string :=
  ["  Email: " ++ py_str (of_opt (email r));
   "  Display Name: " ++ py_str (of_opt (display_name r));
   "  Email Verified: " ++ py_str (PyBool (email_verified r));
   "  Account Disabled: " ++ py_str (PyBool (disabled r))].

(** What the optional lookup contributes when it does not stop the run. *)
Definition lookup_events (w : World) (args : Namespace) : list Event :=
  if show_user_info args
  then match get_user w (user_id args) with
       | Ok r => getting (user_id args) :: EvGetUser (user_id args)
                 :: map EvPrint (profile_lines r)
       | Err _ => []
       end
  else [].

(** The line [reset_user_password] prints for a failed update. *)
Definition update_error_line (user : string) (e : exn) : string :=
  if is_not_found e
  then "❌ User not found: " ++ user
  else "❌ Error resetting password for user " ++ user ++ ": " ++ exn_str e.

(** The line [get_user_info] prints for a failed lookup, if any. *)
Definition lookup_error_lines (e : exn) : list string :=
  if is_not_found e then []
  else ["❌ Error getting user info: " ++ exn_str e].

Definition not_found_line (user : string) : string :=
  "❌ User " ++ user ++ " not found".

Inductive Run (w : World) (args : Namespace) : Prog unit -> Prop :=
| Run_no_file :
    path_exists w (credentials args) = false ->
    Run w args
      ((banner ++
        [EvPathExists (credentials args);
         EvPrint ("❌ Error initializing Firebase: Credentials file not found: "
                  ++ credentials args)])%list,
       Exit 1)
| Run_bad_certificate e :
    path_exists w (credentials args) = true ->
    Certificate w (credentials args) = Err e ->
    Run w args
      ((banner ++
        [EvPathExists (credentials args);
         EvCertificate (credentials args);
         EvPrint ("❌ Error initializing Firebase: " ++ exn_str e)])%list,
       Exit 1)
| Run_init_error cred e :
    path_exists w (credentials args) = true ->
    Certificate w (credentials args) = Ok cred ->
    initialize_app w cred = Err e ->
    Run w args
      ((banner ++
        [EvPathExists (credentials args);
         EvCertificate (credentials args);
         EvInitializeApp cred;
         EvPrint ("❌ Error initializing Firebase: " ++ exn_str e)])%list,
       Exit 1)
| Run_lookup_failed cred e :
    path_exists w (credentials args) = true ->
    Certificate w (credentials args) = Ok cred ->
    initialize_app w cred = Ok tt ->
    show_user_info args = true ->
    get_user w (user_id args) = Err e ->
    Run w args
      ((banner ++ init_events (credentials args) cred ++
        [getting (user_id args); EvGetUser (user_id args)] ++
        map EvPrint (lookup_error_lines e) ++
        [EvPrint (not_found_line (user_id args))])%list,
       Exit 1)
| Run_update_failed cred e :
    path_exists w (credentials args) = true ->
    Certificate w (credentials args) = Ok cred ->
    initialize_app w cred = Ok tt ->
    lookup_passes w args = true ->
    update_user w (user_id args) (password args) = Err e ->
    Run w args
      ((banner ++ init_events (credentials args) cred ++
        lookup_events w args ++
        [resetting (user_id args);
         EvUpdateUser (user_id args) (password args);
         EvPrint (update_error_line (user_id args) e);
         EvPrint "❌ Password reset failed"])%list,
       Exit 1)
| Run_updated cred r :
    path_exists w (credentials args) = true ->
    Certificate w (credentials args) = Ok cred ->
    initialize_app w cred = Ok tt ->
    lookup_passes w args = true ->
    update_user w (user_id args) (password args) = Ok r ->
    Run w args
      ((banner ++ init_events (credentials args) cred ++
        lookup_events w args ++
        [resetting (user_id args);
         EvUpdateUser (user_id args) (password args);
         EvPrint ("✅ Password successfully reset for user: " ++ user_id args);
         EvPrint "✅ Password reset completed successfully!";
         EvPrint ("   New password: " ++ password args)])%list,
       Return tt).

(** ** A sample environment

    One service-account file, one user, one identifier on which the SDK
    fails for a reason of its own; every other identifier is unknown. *)

Definition alice : UserRecord :=
  {| uid := "u1";
     email := Some "alice@example.org";
     display_name := None;
     disabled := false;
     email_verified := true |}.

Definition sample_user_call (user : string) : PyResult UserRecord :=
  if String.eqb user "u1" then Ok alice
  else if String.eqb user "flaky" then Err (OtherException "connection reset")
  else Err (UserNotFoundError "No user record found").

Definition sample_world : World :=
  {| path_exists := fun p => String.eqb p "key.json";
     Certificate := fun p => Ok p;
     initialize_app := fun _ => Ok tt;
     get_user := sample_user_call;
     update_user := fun user _ => sample_user_call user |}.

Definition sample_args (user : string) (show : bool) : Namespace :=
  {| user_id := user;
     credentials := "key.json";
     password := "password123";
     show_user_info := show |}.

(** The same environment with a service-account file that does not hold
    a valid key. *)
Definition bad_key_world : World :=
  {| path_exists := path_exists sample_world;
     Certificate := fun _ => Err (OtherException "Invalid certificate");
     initialize_app := initialize_app sample_world;
     get_user := get_user sample_world;
     update_user := update_user sample_world |}.

(** ** What a command line supplies

    The last occurrence of each valued option, and whether the two
    switches occur at all. *)

Fixpoint supplied_user_id (argv : list Occurrence) : option string :=
  match argv with
  | [] => None
  | OptUserId v :: rest =>
      match supplied_user_id rest with
      | Some v' => Some v'
      | None => Some v
      end
  | _ :: rest => supplied_user_id rest
  end.

Fixpoint supplied_credentials (argv : list Occurrence) : option string :=
  match argv with
  | [] => None
  | OptCredentials v :: rest =>
      match supplied_credentials rest with
      | Some v' => Some v'
      | None => Some v
      end
  | _ :: rest => supplied_credentials rest
  end.

Definition asks_user_info (argv : list Occurrence) : bool :=
  existsb (fun o => match o with OptShowUserInfo => true | _ => false end) argv.

Definition asks_help (argv : list Occurrence) : bool :=
  existsb (fun o => match o with OptHelp => true | _ => false end) argv.

(** The keys of the dictionary [get_user_info] builds. *)
Definition profile_keys : gset string :=
  {[ "uid"; "email"; "display_name"; "disabled"; "email_verified" ]}.

(** The confirmation [main] prints once the reset went through. *)
Definition completed_line : string := "✅ Password reset completed successfully!".

(** The names of the constructors of [Run], for case analyses. *)
Ltac run_cases R :=
  destruct R as [Hpath|e' Hpath Hcert|cred e' Hpath Hcert Happ
                |cred e' Hpath Hcert Happ Hshow' Hget'
                |cred e' Hpath Hcert Happ Hlook' Hupd'
                |cred r' Hpath Hcert Happ Hlook' Hupd'].

(** ** Monad laws *)

Lemma bind_ret_l {A B} (a : A) (k : A -> Prog B) : bind (ret a) k = k a.
Proof. unfold bind, ret. destruct (k a). reflexivity. Qed.

Lemma bind_ret_r {A} (m : Prog A) : bind m ret = m.
Proof.
  destruct m as [t [a|e|c]]; cbn; try reflexivity.
  rewrite app_nil_r. reflexivity.
Qed.

Lemma bind_assoc {A B C} (m : Prog A) (k : A -> Prog B) (h : B -> Prog C) :
  bind (bind m k) h = bind m (fun a => bind (k a) h).
Proof.
  destruct m as [t [a|e|c]]; cbn; try reflexivity.
  destruct (k a) as [t' [b|e|c]]; cbn; try reflexivity.
  destruct (h b) as [t'' o]. rewrite app_assoc. reflexivity.
Qed.

(** ** The three SDK wrappers *)

Section Wrappers.
Variable w : World.

Lemma initialize_firebase_ok path :
  init_succeeds w path = true ->
  exists cred,
    Certificate w path = Ok cred /\
    initialize_app w cred = Ok tt /\
    initialize_firebase w path =
      ([EvPathExists path; EvCertificate path; EvInitializeApp cred;
        EvPrint "✅ Firebase Admin SDK initialized successfully"],
       Return tt).
Proof.
  unfold init_succeeds, initialize_firebase.
  destruct (path_exists w path); [|discriminate].
  destruct (Certificate w path) as [cred|e]; [|discriminate].
  destruct (initialize_app w cred) as [[]|e] eqn:Happ; [|discriminate].
  intros _. exists cred. cbn. rewrite Happ. auto.
Qed.

Lemma initialize_firebase_fails path :
  init_succeeds w path = false ->
  exists t cred,
    initialize_firebase w path = (t, Exit 1) /\
    calls t `prefix_of`
      [EvPathExists path; EvCertificate path; EvInitializeApp cred] /\
    printed t <> [].
Proof.
  unfold init_succeeds, initialize_firebase.
  destruct (path_exists w path).
  - destruct (Certificate w path) as [cred|e].
    + destruct (initialize_app w cred) as [[]|e] eqn:Happ; [discriminate|].
      intros _. eexists _, cred. cbn. rewrite Happ. cbn.
      split; [reflexivity|]. split; [|discriminate].
      exists []. reflexivity.
    + intros _. eexists _, "". cbn.
      split; [reflexivity|]. split; [|discriminate].
      exists [EvInitializeApp ""]. reflexivity.
  - intros _. eexists _, "". cbn.
    split; [reflexivity|]. split; [|discriminate].
    exists [EvCertificate path; EvInitializeApp ""]. reflexivity.
Qed.

(** The initialisation step has two ways out and no third. *)
Lemma initialize_firebase_outcome path :
  outcome (initialize_firebase w path) =
    if init_succeeds w path then Return tt else Exit 1.
Proof.
  destruct (init_succeeds w path) eqn:H.
  - destruct (initialize_firebase_ok _ H) as (cred & _ & _ & ->). reflexivity.
  - destruct (initialize_firebase_fails _ H) as (t & cred & -> & _). reflexivity.
Qed.

Lemma reset_user_password_run user pw :
  reset_user_password w user (Some pw) =
    match update_user w user pw with
    | Ok _ =>
        ([EvUpdateUser user pw;
          EvPrint ("✅ Password successfully reset for user: " ++ user)],
         Return true)
    | Err e =>
        ([EvUpdateUser user pw;
          EvPrint (if is_not_found e
                   then "❌ User not found: " ++ user
                   else "❌ Error resetting password for user " ++ user
                        ++ ": " ++ exn_str e)],
         Return false)
    end.
Proof.
  unfold reset_user_password. cbn.
  destruct (update_user w user pw) as [r|[]]; reflexivity.
Qed.

Lemma get_user_info_found user r :
  get_user w user = Ok r ->
  exists d,
    get_user_info w user = ([EvGetUser user], Return (Some d)) /\
    truthy (Some d) = true /\
    getitem (Some d) "email" = ret (of_opt (email r)) /\
    getitem (Some d) "display_name" = ret (of_opt (display_name r)) /\
    getitem (Some d) "email_verified" = ret (PyBool (email_verified r)) /\
    getitem (Some d) "disabled" = ret (PyBool (disabled r)).
Proof.
  intros H. unfold get_user_info. rewrite H. cbn -[insert].
  eexists. split; [reflexivity|]. repeat split; vm_compute; reflexivity.
Qed.

Lemma get_user_info_failed user e :
  get_user w user = Err e ->
  get_user_info w user =
    ((EvGetUser user ::
      if is_not_found e then []
      else [EvPrint ("❌ Error getting user info: " ++ exn_str e)])%list,
     Return None).
Proof.
  intros H. unfold get_user_info. rewrite H. destruct e; reflexivity.
Qed.
End Wrappers.

(** ** The parser *)

Lemma consume_password argv :
  forall ns t ns',
    consume argv ns = (t, Return ns') ->
    t = [] /\
    p_password ns' = default (p_password ns) (supplied_password argv).
Proof.
  induction argv as [|o rest IH]; intros ns t ns' H.
  - injection H as <- <-. split; reflexivity.
  - destruct o; cbn [consume] in H;
      try (apply IH in H as [-> ->]; cbn;
           destruct (supplied_password rest); split; reflexivity).
    discriminate H.
Qed.

Lemma supplied_password_omitted argv :
  omits_password argv = true -> supplied_password argv = None.
Proof.
  induction argv as [|o rest IH]; [reflexivity|].
  destruct o; cbn; try exact IH. discriminate.
Qed.

Lemma parse_args_password argv args :
  parse_args argv = ret args ->
  password args = default "password123" (supplied_password argv).
Proof.
  unfold parse_args.
  destruct (consume argv defaults) as [t [ns| |]] eqn:Hc; cbn; try discriminate.
  apply consume_password in Hc as [-> Hp].
  destruct (p_user_id ns), (p_credentials ns); cbn; try discriminate.
  intros [= <-]. exact Hp.
Qed.

(** The parser either hands back a namespace, silently, or stops the
    process with argparse's own message and status (0 for help, 2 for a
    usage error). *)
Lemma parse_args_cases argv :
  (exists args, parse_args argv = ret args) \/
  (exists msg code, parse_args argv = ([EvUsage msg], Exit code) /\
                    (code = 0 \/ code = 2)).
Proof.
  unfold parse_args.
  assert (Hc : forall ns,
             (exists ns', consume argv ns = ([], Return ns')) \/
             consume argv ns = ([EvUsage "help"], Exit 0)).
  { induction argv as [|o rest IH]; intros ns; [left; eexists; reflexivity|].
    destruct o; cbn [consume]; auto. }
  destruct (Hc defaults) as [[ns ->]| ->]; cbn.
  - destruct (p_user_id ns), (p_credentials ns); cbn; eauto 6.
  - right. eauto.
Qed.

(** ** [main] runs as [Run] says *)

Lemma init_succeeds_inv w path :
  init_succeeds w path = true ->
  exists cred,
    path_exists w path = true /\
    Certificate w path = Ok cred /\
    initialize_app w cred = Ok tt.
Proof.
  unfold init_succeeds.
  destruct (path_exists w path); [|discriminate].
  destruct (Certificate w path) as [cred|e]; [|discriminate].
  destruct (initialize_app w cred) as [[]|e] eqn:Happ; [|discriminate].
  intros _. exists cred. auto.
Qed.

Lemma init_succeeds_intro w path cred :
  path_exists w path = true ->
  Certificate w path = Ok cred ->
  initialize_app w cred = Ok tt ->
  init_succeeds w path = true.
Proof. unfold init_succeeds. intros -> -> ->. reflexivity. Qed.

Theorem main_runs w argv args :
  parse_args argv = ret args -> Run w args (main w argv).
Proof.
  intros Hparse. unfold main. rewrite Hparse, bind_ret_l.
  destruct (path_exists w (credentials args)) eqn:Hpath.
  2: { unfold initialize_firebase. rewrite Hpath. apply Run_no_file, Hpath. }
  destruct (Certificate w (credentials args)) as [cred|e] eqn:Hcert.
  2: { unfold initialize_firebase. rewrite Hpath, Hcert.
       apply Run_bad_certificate; assumption. }
  destruct (initialize_app w cred) as [[]|e] eqn:Happ.
  2: { unfold initialize_firebase. rewrite Hpath, Hcert. cbn. rewrite Happ.
       eapply Run_init_error; eassumption. }
  destruct (initialize_firebase_ok w (credentials args)
              (init_succeeds_intro _ _ _ Hpath Hcert Happ))
    as (cred' & Hcert' & _ & ->).
  assert (cred' = cred) as -> by congruence.
  rewrite reset_user_password_run.
  destruct (show_user_info args) eqn:Hshow.
  - destruct (get_user w (user_id args)) as [r|e] eqn:Hget.
    + destruct (get_user_info_found w _ _ Hget)
        as (d & Hd & Ht & He & Hn & Hv & Hs).
      rewrite Hd. cbn [bind print emit].
      rewrite Ht, He. cbn [bind print emit ret].
      rewrite Hn. cbn [bind print emit ret].
      rewrite Hv. cbn [bind print emit ret].
      rewrite Hs. cbn [bind print emit ret].
      destruct (update_user w (user_id args) (password args)) as [r'|e] eqn:Hupd.
      * pose proof (Run_updated w args cred r' Hpath Hcert Happ) as R.
        unfold lookup_passes, user_exists, lookup_events in R.
        rewrite Hshow, Hget in R. exact (R eq_refl Hupd).
      * pose proof (Run_update_failed w args cred e Hpath Hcert Happ) as R.
        unfold lookup_passes, user_exists, lookup_events in R.
        rewrite Hshow, Hget in R. exact (R eq_refl Hupd).
    + rewrite (get_user_info_failed w _ _ Hget).
      pose proof (Run_lookup_failed w args cred e Hpath Hcert Happ Hshow Hget) as R.
      destruct e; exact R.
  - destruct (update_user w (user_id args) (password args)) as [r'|e] eqn:Hupd.
    + pose proof (Run_updated w args cred r' Hpath Hcert Happ) as R.
      unfold lookup_passes, lookup_events in R.
      rewrite Hshow in R. exact (R eq_refl Hupd).
    + pose proof (Run_update_failed w args cred e Hpath Hcert Happ) as R.
      unfold lookup_passes, lookup_events in R.
      rewrite Hshow in R. exact (R eq_refl Hupd).
Qed.

(** ** Facts about runs *)

Lemma calls_app t1 t2 : calls (t1 ++ t2) = (calls t1 ++ calls t2)%list.
Proof. apply List.filter_app. Qed.

Lemma update_calls_app t1 t2 :
  update_calls (t1 ++ t2) = (update_calls t1 ++ update_calls t2)%list.
Proof. apply List.filter_app. Qed.

Lemma printed_app t1 t2 : printed (t1 ++ t2) = (printed t1 ++ printed t2)%list.
Proof.
  induction t1 as [|ev t1 IH]; [reflexivity|].
  destruct ev; cbn; rewrite IH; reflexivity.
Qed.

Lemma printed_prints ls : printed (map EvPrint ls) = ls.
Proof. induction ls as [|l ls IH]; cbn; [|rewrite IH]; reflexivity. Qed.

(** Printing is not a call. *)
Lemma calls_prints ls : calls (map EvPrint ls) = [].
Proof. induction ls as [|l ls IH]; cbn; [reflexivity|exact IH]. Qed.

Lemma update_calls_prints ls : update_calls (map EvPrint ls) = [].
Proof. induction ls as [|l ls IH]; cbn; [reflexivity|exact IH]. Qed.

Lemma lookup_events_calls w args :
  lookup_passes w args = true ->
  calls (lookup_events w args) =
    if show_user_info args then [EvGetUser (user_id args)] else [].
Proof.
  unfold lookup_passes, user_exists, lookup_events.
  destruct (show_user_info args); [|reflexivity].
  destruct (get_user w (user_id args)); [reflexivity|discriminate].
Qed.

Lemma lookup_events_update_calls w args :
  update_calls (lookup_events w args) = [].
Proof.
  unfold lookup_events.
  destruct (show_user_info args); [|reflexivity].
  destruct (get_user w (user_id args)); reflexivity.
Qed.

Lemma plan_NoDup args cred : NoDup (plan args cred).
Proof.
  unfold plan. destruct (show_user_info args); cbn;
    repeat (apply NoDup_cons; split;
            [rewrite ?elem_of_cons, elem_of_nil; intuition discriminate|]);
    apply NoDup_nil_2.
Qed.

(** The calls of any run are an initial stretch of the plan. *)
Lemma Run_calls w args m :
  Run w args m -> exists cred, calls (trace m) `prefix_of` plan args cred.
Proof.
  intros [Hpath|e Hpath Hcert|cred e Hpath Hcert Happ
         |cred e Hpath Hcert Happ Hshow Hget
         |cred e Hpath Hcert Happ Hlook Hupd
         |cred r Hpath Hcert Happ Hlook Hupd]; cbn [trace fst].
  - exists "". unfold plan. cbn. eexists. reflexivity.
  - exists "". unfold plan. cbn. eexists. reflexivity.
  - exists cred. unfold plan. cbn. eexists. reflexivity.
  - exists cred. unfold plan. rewrite Hshow.
    rewrite !calls_app, calls_prints. cbn. eexists. reflexivity.
  - exists cred. unfold plan.
    rewrite !calls_app, (lookup_events_calls _ _ Hlook). cbn.
    exists []. rewrite app_nil_r. reflexivity.
  - exists cred. unfold plan.
    rewrite !calls_app, (lookup_events_calls _ _ Hlook). cbn.
    exists []. rewrite app_nil_r. reflexivity.
Qed.

(** The exit-code contract: 0 for a run that updated the password, 1 for
    every other run that got past the parser. *)
Lemma Run_exit_status w args m :
  Run w args m ->
  exit_status m =
    if init_succeeds w (credentials args) && lookup_passes w args
       && update_succeeds w (user_id args) (password args)
    then 0 else 1.
Proof.
  unfold init_succeeds, lookup_passes, user_exists, update_succeeds.
  intros [Hpath|e Hpath Hcert|cred e Hpath Hcert Happ
         |cred e Hpath Hcert Happ Hshow Hget
         |cred e Hpath Hcert Happ Hlook Hupd
         |cred r Hpath Hcert Happ Hlook Hupd];
    unfold lookup_passes, user_exists in *;
    rewrite ?Hpath, ?Hcert, ?Happ, ?Hshow, ?Hget, ?Hlook, ?Hupd;
    reflexivity.
Qed.

(** A run without the flag updates exactly once and never looks up. *)
Lemma Run_quiet w args m :
  Run w args m ->
  init_succeeds w (credentials args) = true ->
  show_user_info args = false ->
  update_calls (trace m) = [EvUpdateUser (user_id args) (password args)] /\
  lookup_calls (trace m) = [].
Proof.
  intros R Hinit Hshow.
  apply init_succeeds_inv in Hinit as (cred0 & Hp & Hc & Ha).
  destruct R; try congruence; cbn [trace fst];
    unfold lookup_events; rewrite Hshow; split; reflexivity.
Qed.

Lemma Run_NoDup_calls w args m : Run w args m -> NoDup (calls (trace m)).
Proof.
  intros R. destruct (Run_calls _ _ _ R) as (cred & k & Hk).
  pose proof (plan_NoDup args cred) as Hnd.
  rewrite Hk in Hnd. apply NoDup_app in Hnd as [Hnd _]. exact Hnd.
Qed.

(** A run that stops in the initialisation step performs no user
    operation. *)
Lemma Run_init_failed w args m :
  Run w args m ->
  init_succeeds w (credentials args) = false ->
  user_ops (trace m) = [].
Proof.
  intros R Hinit.
  destruct R as [Hpath|e Hpath Hcert|cred e Hpath Hcert Happ
                |cred e Hpath Hcert Happ Hshow Hget
                |cred e Hpath Hcert Happ Hlook Hupd
                |cred r Hpath Hcert Happ Hlook Hupd];
    try reflexivity;
    rewrite (init_succeeds_intro _ _ _ Hpath Hcert Happ) in Hinit;
    discriminate Hinit.
Qed.

(** ** Properties of the specification *)

(** C1.  With valid credentials and without [--show-user-info], the run
    issues exactly one password update, for the target user, and no
    lookup; when that update succeeds the exit status is 0.  For every
    command line that parses, the calls made are an initial stretch of
    path check, certificate, application, optional lookup, update, in
    that order, and no call is made twice. *)
Theorem main_single_update_linear w argv args :
  parse_args argv = ret args ->
  (exists cred, calls (trace (main w argv)) `prefix_of` plan args cred) /\
  NoDup (calls (trace (main w argv))) /\
  (init_succeeds w (credentials args) = true ->
   show_user_info args = false ->
   update_calls (trace (main w argv))
     = [EvUpdateUser (user_id args) (password args)] /\
   lookup_calls (trace (main w argv)) = [] /\
   (update_succeeds w (user_id args) (password args) = true ->
    exit_status (main w argv) = 0)).
Proof.
  intros Hparse. pose proof (main_runs w _ _ Hparse) as R.
  split; [exact (Run_calls _ _ _ R)|].
  split; [exact (Run_NoDup_calls _ _ _ R)|].
  intros Hinit Hshow.
  destruct (Run_quiet _ _ _ R Hinit Hshow) as [Hupd Hlook].
  repeat split; try assumption.
  intros Hok. rewrite (Run_exit_status _ _ _ R).
  unfold lookup_passes. rewrite Hinit, Hshow, Hok. reflexivity.
Qed.

Lemma main_single_update_linear_witness :
  parse_args [OptUserId "u1"; OptCredentials "key.json"]
    = ret (sample_args "u1" false) /\
  init_succeeds sample_world "key.json" = true /\
  update_calls
    (trace (main sample_world [OptUserId "u1"; OptCredentials "key.json"]))
    = [EvUpdateUser "u1" "password123"] /\
  exit_status (main sample_world [OptUserId "u1"; OptCredentials "key.json"]) = 0.
Proof.
  split; [reflexivity|]. split; [reflexivity|].
  destruct (main_single_update_linear sample_world
              [OptUserId "u1"; OptCredentials "key.json"]
              (sample_args "u1" false) eq_refl) as (_ & _ & H).
  destruct (H eq_refl eq_refl) as (Hupd & _ & Hexit).
  split; [exact Hupd|exact (Hexit eq_refl)].
Defined.

(** C2.  When the credential path does not resolve to an existing file,
    the process exits with status 1 and the trace holds neither a lookup
    nor an update. *)
Theorem missing_credentials_abort w argv args :
  parse_args argv = ret args ->
  path_exists w (credentials args) = false ->
  exit_status (main w argv) = 1 /\
  user_ops (trace (main w argv)) = [].
Proof.
  intros Hparse Hpath. pose proof (main_runs w _ _ Hparse) as R.
  assert (Hinit : init_succeeds w (credentials args) = false)
    by (unfold init_succeeds; rewrite Hpath; reflexivity).
  split.
  - rewrite (Run_exit_status _ _ _ R), Hinit. reflexivity.
  - exact (Run_init_failed _ _ _ R Hinit).
Qed.

Lemma missing_credentials_abort_witness :
  parse_args [OptUserId "u1"; OptCredentials "nowhere.json"]
    = ret {| user_id := "u1"; credentials := "nowhere.json";
             password := "password123"; show_user_info := false |} /\
  path_exists sample_world "nowhere.json" = false /\
  exit_status
    (main sample_world [OptUserId "u1"; OptCredentials "nowhere.json"]) = 1 /\
  user_ops
    (trace (main sample_world [OptUserId "u1"; OptCredentials "nowhere.json"]))
    = [].
Proof.
  split; [reflexivity|]. split; [reflexivity|].
  exact (missing_credentials_abort sample_world
           [OptUserId "u1"; OptCredentials "nowhere.json"] _ eq_refl eq_refl).
Defined.

(** C3.  With [--show-user-info] and a target user the SDK does not know,
    the process exits with status 1 and no update call is issued. *)
Theorem lookup_not_found_preempts_update w argv args msg :
  parse_args argv = ret args ->
  show_user_info args = true ->
  get_user w (user_id args) = Err (UserNotFoundError msg) ->
  exit_status (main w argv) = 1 /\
  update_calls (trace (main w argv)) = [].
Proof.
  intros Hparse Hshow Hget. pose proof (main_runs w _ _ Hparse) as R.
  assert (Hlook : lookup_passes w args = false)
    by (unfold lookup_passes, user_exists; rewrite Hshow, Hget; reflexivity).
  split.
  - rewrite (Run_exit_status _ _ _ R), Hlook, andb_false_r. reflexivity.
  - revert R. generalize (main w argv). intros m R.
    destruct R as [Hpath|e Hpath Hcert|cred e Hpath Hcert Happ
                  |cred e Hpath Hcert Happ _ Hget'
                  |cred e Hpath Hcert Happ Hlook' Hupd
                  |cred r Hpath Hcert Happ Hlook' Hupd];
      try reflexivity; try congruence.
    cbn [trace fst]. rewrite !update_calls_app, update_calls_prints.
    reflexivity.
Qed.

Lemma lookup_not_found_preempts_update_witness :
  parse_args [OptUserId "ghost"; OptCredentials "key.json"; OptShowUserInfo]
    = ret (sample_args "ghost" true) /\
  get_user sample_world "ghost" = Err (UserNotFoundError "No user record found") /\
  exit_status
    (main sample_world
       [OptUserId "ghost"; OptCredentials "key.json"; OptShowUserInfo]) = 1 /\
  update_calls
    (trace (main sample_world
              [OptUserId "ghost"; OptCredentials "key.json"; OptShowUserInfo]))
    = [].
Proof.
  split; [reflexivity|]. split; [reflexivity|].
  exact (lookup_not_found_preempts_update sample_world
           [OptUserId "ghost"; OptCredentials "key.json"; OptShowUserInfo]
           (sample_args "ghost" true) "No user record found"
           eq_refl eq_refl eq_refl).
Defined.

(** C4.  A failed update is reported with one of two different lines,
    ["User not found"] for [UserNotFoundError] and ["Error resetting
    password"] for every other error; in both cases [reset_user_password]
    returns [False] and the process exits with status 1, the status of
    every run that fails after parsing. *)
Theorem update_failures_reported_apart w argv args e :
  parse_args argv = ret args ->
  update_user w (user_id args) (password args) = Err e ->
  printed (trace (reset_user_password w (user_id args) (Some (password args))))
    = [if is_not_found e
       then "❌ User not found: " ++ user_id args
       else "❌ Error resetting password for user " ++ user_id args
            ++ ": " ++ exn_str e] /\
  (forall s,
      "❌ User not found: " ++ user_id args
      <> "❌ Error resetting password for user " ++ user_id args ++ ": " ++ s) /\
  outcome (reset_user_password w (user_id args) (Some (password args)))
    = Return false /\
  exit_status (main w argv) = 1 /\
  (init_succeeds w (credentials args) = true ->
   lookup_passes w args = true ->
   exists before,
     printed (trace (main w argv))
     = (before ++
        printed (trace (reset_user_password w (user_id args)
                          (Some (password args)))) ++
        ["❌ Password reset failed"])%list) /\
  (forall w',
      exit_status (main w' argv) =
        if init_succeeds w' (credentials args) && lookup_passes w' args
           && update_succeeds w' (user_id args) (password args)
        then 0 else 1).
Proof.
  intros Hparse Hupd.
  rewrite reset_user_password_run, Hupd. cbn [trace outcome fst snd printed].
  split; [reflexivity|].
  split; [intros s H; cbn in H; discriminate H|].
  split; [reflexivity|].
  pose proof (main_runs w _ _ Hparse) as R.
  split; [|split].
  - rewrite (Run_exit_status _ _ _ R). unfold update_succeeds.
    rewrite Hupd, andb_false_r. reflexivity.
  - intros Hinit Hlook. revert R. generalize (main w argv). intros m R.
    apply init_succeeds_inv in Hinit as (cred0 & Hp & Hc & Ha).
    unfold lookup_passes, user_exists in Hlook.
    destruct R as [Hpath|e' Hpath Hcert|cred e' Hpath Hcert Happ
                  |cred e' Hpath Hcert Happ Hshow Hget
                  |cred e' Hpath Hcert Happ _ Hupd'
                  |cred r Hpath Hcert Happ _ Hupd']; try congruence.
    + rewrite Hshow, Hget in Hlook. discriminate Hlook.
    + assert (e' = e) as -> by congruence.
      cbn [trace fst]. rewrite !printed_app.
      exists (printed banner ++ printed (init_events (credentials args) cred)
              ++ printed (lookup_events w args)
              ++ [resetting_line (user_id args)])%list.
      rewrite <- !app_assoc. reflexivity.
  - intros w'. apply Run_exit_status, main_runs, Hparse.
Qed.

Lemma update_failures_reported_apart_witness :
  parse_args [OptUserId "ghost"; OptCredentials "key.json"]
    = ret (sample_args "ghost" false) /\
  update_user sample_world "ghost" "password123"
    = Err (UserNotFoundError "No user record found") /\
  printed (trace (reset_user_password sample_world "ghost" (Some "password123")))
    = ["❌ User not found: ghost"] /\
  exit_status (main sample_world [OptUserId "ghost"; OptCredentials "key.json"])
    = 1.
Proof.
  split; [reflexivity|]. split; [reflexivity|].
  destruct (update_failures_reported_apart sample_world
              [OptUserId "ghost"; OptCredentials "key.json"]
              (sample_args "ghost" false)
              (UserNotFoundError "No user record found") eq_refl eq_refl)
    as (Hline & _ & _ & Hexit & _).
  split; [exact Hline|exact Hexit].
Defined.

(** C5.  With [--show-user-info], after a successful initialisation: an
    existing user has the four profile lines printed; an unknown user
    yields the single line ["User ... not found"] and exit status 1; any
    other lookup error yields, before that line, the line ["Error getting
    user info: ..."], so the console output of the two failures
    differs. *)
Theorem lookup_outcomes_reported w argv args :
  parse_args argv = ret args ->
  init_succeeds w (credentials args) = true ->
  show_user_info args = true ->
  (forall r, get_user w (user_id args) = Ok r ->
     exists rest,
       printed (trace (main w argv))
       = (preamble ++ [getting_line (user_id args)] ++ profile_lines r ++ rest)%list) /\
  (forall e, get_user w (user_id args) = Err e -> is_not_found e = true ->
     printed (trace (main w argv))
     = (preamble ++ [getting_line (user_id args);
                     ("❌ User " ++ user_id args ++ " not found")%string])%list /\
     exit_status (main w argv) = 1) /\
  (forall e, get_user w (user_id args) = Err e -> is_not_found e = false ->
     printed (trace (main w argv))
     = (preamble ++ [getting_line (user_id args);
                     ("❌ Error getting user info: " ++ exn_str e)%string;
                     ("❌ User " ++ user_id args ++ " not found")%string])%list) /\
  (forall w' e e',
     init_succeeds w' (credentials args) = true ->
     get_user w (user_id args) = Err e -> is_not_found e = true ->
     get_user w' (user_id args) = Err e' -> is_not_found e' = false ->
     printed (trace (main w argv)) <> printed (trace (main w' argv))).
Proof.
  intros Hparse Hinit Hshow.
  assert (Hfail : forall w0 e,
             init_succeeds w0 (credentials args) = true ->
             get_user w0 (user_id args) = Err e ->
             exists cred,
               main w0 argv =
                 ((banner ++ init_events (credentials args) cred ++
                   [getting (user_id args); EvGetUser (user_id args)] ++
                   map EvPrint (lookup_error_lines e) ++
                   [EvPrint (not_found_line (user_id args))])%list, Exit 1)).
  { intros w0 e Hi Hget.
    pose proof (main_runs w0 _ _ Hparse) as R.
    apply init_succeeds_inv in Hi as (cred0 & Hp & Hc & Ha).
    inversion R as [Hpath|e' Hpath Hcert|cred e' Hpath Hcert Happ
                   |cred e' Hpath Hcert Happ _ Hget'
                   |cred e' Hpath Hcert Happ Hlook Hupd
                   |cred r Hpath Hcert Happ Hlook Hupd]; try congruence.
    - exists cred. assert (e' = e) as -> by congruence. reflexivity.
    - unfold lookup_passes, user_exists in Hlook.
      rewrite Hshow, Hget in Hlook. discriminate Hlook.
    - unfold lookup_passes, user_exists in Hlook.
      rewrite Hshow, Hget in Hlook. discriminate Hlook. }
  assert (Hprinted : forall w0 e,
             init_succeeds w0 (credentials args) = true ->
             get_user w0 (user_id args) = Err e ->
             printed (trace (main w0 argv)) =
               (preamble ++ getting_line (user_id args)
                :: lookup_error_lines e ++ [not_found_line (user_id args)])%list
             /\ outcome (main w0 argv) = Exit 1).
  { intros w0 e Hi Hget.
    destruct (Hfail w0 e Hi Hget) as [cred ->].
    cbn [trace outcome fst snd].
      rewrite !printed_app, printed_prints; split; reflexivity. }
  split; [|split; [|split]].
  - intros r Hget. pose proof (main_runs w _ _ Hparse) as R.
    apply init_succeeds_inv in Hinit as (cred0 & Hp & Hc & Ha).
    revert R. generalize (main w argv). intros m R.
    destruct R as [Hpath|e' Hpath Hcert|cred e' Hpath Hcert Happ
                  |cred e' Hpath Hcert Happ _ Hget'
                  |cred e' Hpath Hcert Happ Hlook Hupd
                  |cred r' Hpath Hcert Happ Hlook Hupd]; try congruence;
      cbn [trace fst]; unfold lookup_events; rewrite Hshow, Hget;
      rewrite !printed_app; cbn; eexists; reflexivity.
  - intros e Hget Hnf. destruct (Hprinted w e Hinit Hget) as [-> Hout].
    unfold lookup_error_lines. rewrite Hnf. split; [reflexivity|].
    unfold exit_status. rewrite Hout. reflexivity.
  - intros e Hget Hnf. destruct (Hprinted w e Hinit Hget) as [-> _].
    unfold lookup_error_lines. rewrite Hnf. reflexivity.
  - intros w' e e' Hinit' Hget Hnf Hget' Hnf'.
    destruct (Hprinted w e Hinit Hget) as [-> _].
    destruct (Hprinted w' e' Hinit' Hget') as [-> _].
    unfold lookup_error_lines. rewrite Hnf, Hnf'.
    intros H. apply (f_equal (@length string)) in H. cbn in H. discriminate H.
Qed.

Lemma lookup_outcomes_reported_witness :
  parse_args [OptUserId "ghost"; OptCredentials "key.json"; OptShowUserInfo]
    = ret (sample_args "ghost" true) /\
  init_succeeds sample_world "key.json" = true /\
  printed (trace (main sample_world
                    [OptUserId "ghost"; OptCredentials "key.json";
                     OptShowUserInfo]))
    = (preamble ++ [getting_line "ghost"; "❌ User ghost not found"])%list /\
  exit_status (main sample_world
                 [OptUserId "ghost"; OptCredentials "key.json";
                  OptShowUserInfo]) = 1.
Proof.
  split; [reflexivity|]. split; [reflexivity|].
  destruct (lookup_outcomes_reported sample_world
              [OptUserId "ghost"; OptCredentials "key.json"; OptShowUserInfo]
              (sample_args "ghost" true) eq_refl eq_refl eq_refl)
    as (_ & Hnf & _).
  exact (Hnf (UserNotFoundError "No user record found") eq_refl eq_refl).
Defined.

Lemma Run_update_calls w args m :
  Run w args m ->
  update_calls (trace m) =
    if init_succeeds w (credentials args) && lookup_passes w args
    then [EvUpdateUser (user_id args) (password args)] else [].
Proof.
  intros [Hpath|e Hpath Hcert|cred e Hpath Hcert Happ
         |cred e Hpath Hcert Happ Hshow Hget
         |cred e Hpath Hcert Happ Hlook Hupd
         |cred r Hpath Hcert Happ Hlook Hupd]; cbn [trace fst].
  - unfold init_succeeds. rewrite Hpath. reflexivity.
  - unfold init_succeeds. rewrite Hpath, Hcert. reflexivity.
  - unfold init_succeeds. rewrite Hpath, Hcert, Happ. reflexivity.
  - unfold lookup_passes, user_exists. rewrite Hshow, Hget, andb_false_r.
    rewrite !update_calls_app, update_calls_prints. reflexivity.
  - rewrite (init_succeeds_intro _ _ _ Hpath Hcert Happ), Hlook.
    rewrite !update_calls_app, lookup_events_update_calls. reflexivity.
  - rewrite (init_succeeds_intro _ _ _ Hpath Hcert Happ), Hlook.
    rewrite !update_calls_app, lookup_events_update_calls. reflexivity.
Qed.

(** C6.  On a command line without [-p/--password], the parsed password
    is the literal ["password123"], every update call of the run carries
    it, and the run that reaches the update step issues exactly that
    call; the same literal is the default of [reset_user_password]'s own
    parameter. *)
Theorem default_password_used w argv :
  omits_password argv = true ->
  Forall (fun ev => exists user, ev = EvUpdateUser user "password123")
         (update_calls (trace (main w argv))) /\
  (forall args,
      parse_args argv = ret args ->
      password args = "password123" /\
      (init_succeeds w (credentials args) = true ->
       lookup_passes w args = true ->
       update_calls (trace (main w argv))
         = [EvUpdateUser (user_id args) "password123"])) /\
  (forall user,
      reset_user_password w user None
      = reset_user_password w user (Some "password123")).
Proof.
  intros Homit.
  assert (Hpw : forall args, parse_args argv = ret args ->
                             password args = "password123").
  { intros args Hparse. rewrite (parse_args_password _ _ Hparse).
    rewrite (supplied_password_omitted _ Homit). reflexivity. }
  split; [|split].
  - destruct (parse_args_cases argv) as [[args Hparse]|(msg & code & H & _)].
    + rewrite (Run_update_calls _ _ _ (main_runs w _ _ Hparse)).
      rewrite (Hpw _ Hparse).
      destruct (init_succeeds w (credentials args) && lookup_passes w args);
        repeat constructor. exists (user_id args). reflexivity.
    + unfold main. rewrite H. constructor.
  - intros args Hparse. split; [exact (Hpw _ Hparse)|].
    intros Hinit Hlook.
    rewrite (Run_update_calls _ _ _ (main_runs w _ _ Hparse)).
    rewrite Hinit, Hlook, (Hpw _ Hparse). reflexivity.
  - intros user. reflexivity.
Qed.

Lemma default_password_used_witness :
  omits_password [OptUserId "u1"; OptCredentials "key.json"] = true /\
  update_calls
    (trace (main sample_world [OptUserId "u1"; OptCredentials "key.json"]))
    = [EvUpdateUser "u1" "password123"].
Proof.
  split; [reflexivity|].
  destruct (default_password_used sample_world
              [OptUserId "u1"; OptCredentials "key.json"] eq_refl)
    as (_ & H & _).
  destruct (H (sample_args "u1" false) eq_refl) as [_ Hupd].
  exact (Hupd eq_refl eq_refl).
Defined.

(** C7.  When the script runs to its end, the last line printed is
    ["   New password: "] followed by the parsed password, which is the
    value of the last [-p/--password] on the command line, or
    ["password123"] when there is none, and which is the password of the
    one update call of the run. *)
Theorem success_message_shows_password w argv :
  outcome (main w argv) = Return tt ->
  exists args,
    parse_args argv = ret args /\
    password args = default "password123" (supplied_password argv) /\
    last (printed (trace (main w argv)))
      = Some ("   New password: " ++ password args) /\
    update_calls (trace (main w argv))
      = [EvUpdateUser (user_id args) (password args)].
Proof.
  intros Hout.
  destruct (parse_args_cases argv) as [[args Hparse]|(msg & code & H & _)].
  2: { unfold main in Hout. rewrite H in Hout. discriminate Hout. }
  exists args. split; [exact Hparse|].
  split; [exact (parse_args_password _ _ Hparse)|].
  pose proof (main_runs w _ _ Hparse) as R.
  revert Hout R. generalize (main w argv). intros m Hout R.
  destruct R as [Hpath|e Hpath Hcert|cred e Hpath Hcert Happ
                |cred e Hpath Hcert Happ Hshow Hget
                |cred e Hpath Hcert Happ Hlook Hupd
                |cred r Hpath Hcert Happ Hlook Hupd]; try discriminate Hout.
  cbn [trace fst]. split.
  - rewrite !printed_app, !last_app. reflexivity.
  - rewrite !update_calls_app, lookup_events_update_calls. reflexivity.
Qed.

Lemma success_message_shows_password_witness :
  outcome (main sample_world
             [OptUserId "u1"; OptPassword "first"; OptCredentials "key.json";
              OptPassword "s3cret"]) = Return tt /\
  exists args,
    parse_args [OptUserId "u1"; OptPassword "first"; OptCredentials "key.json";
                OptPassword "s3cret"] = ret args /\
    password args = "s3cret" /\
    last (printed (trace (main sample_world
                            [OptUserId "u1"; OptPassword "first";
                             OptCredentials "key.json"; OptPassword "s3cret"])))
      = Some ("   New password: " ++ password args) /\
    update_calls (trace (main sample_world
                           [OptUserId "u1"; OptPassword "first";
                            OptCredentials "key.json"; OptPassword "s3cret"]))
      = [EvUpdateUser (user_id args) (password args)].
Proof.
  split; [reflexivity|].
  exact (success_message_shows_password sample_world
           [OptUserId "u1"; OptPassword "first"; OptCredentials "key.json";
            OptPassword "s3cret"] eq_refl).
Defined.

(** C8.  Whatever exception the lookup raises, [get_user_info] returns
    [None]; with [--show-user-info] the run then ends with the line
    ["User ... not found"], exit status 1 and no update call. *)
Theorem lookup_failures_conflated w argv args e :
  parse_args argv = ret args ->
  init_succeeds w (credentials args) = true ->
  show_user_info args = true ->
  get_user w (user_id args) = Err e ->
  outcome (get_user_info w (user_id args)) = Return None /\
  last (printed (trace (main w argv)))
    = Some ("❌ User " ++ user_id args ++ " not found") /\
  exit_status (main w argv) = 1 /\
  update_calls (trace (main w argv)) = [].
Proof.
  intros Hparse Hinit Hshow Hget.
  split; [rewrite (get_user_info_failed _ _ _ Hget); reflexivity|].
  pose proof (main_runs w _ _ Hparse) as R.
  assert (Hlook : lookup_passes w args = false)
    by (unfold lookup_passes, user_exists; rewrite Hshow, Hget; reflexivity).
  split; [|split].
  - apply init_succeeds_inv in Hinit as (cred0 & Hp & Hc & Ha).
    revert R. generalize (main w argv). intros m R.
    destruct R as [Hpath|e' Hpath Hcert|cred e' Hpath Hcert Happ
                  |cred e' Hpath Hcert Happ _ Hget'
                  |cred e' Hpath Hcert Happ Hlook' Hupd
                  |cred r Hpath Hcert Happ Hlook' Hupd]; try congruence.
    cbn [trace fst]. rewrite !printed_app, !last_app. reflexivity.
  - rewrite (Run_exit_status _ _ _ R), Hlook, andb_false_r. reflexivity.
  - rewrite (Run_update_calls _ _ _ R), Hlook, andb_false_r. reflexivity.
Qed.

Lemma lookup_failures_conflated_witness :
  parse_args [OptUserId "flaky"; OptCredentials "key.json"; OptShowUserInfo]
    = ret (sample_args "flaky" true) /\
  get_user sample_world "flaky" = Err (OtherException "connection reset") /\
  outcome (get_user_info sample_world "flaky") = Return None /\
  last (printed (trace (main sample_world
                          [OptUserId "flaky"; OptCredentials "key.json";
                           OptShowUserInfo])))
    = Some "❌ User flaky not found" /\
  exit_status (main sample_world
                 [OptUserId "flaky"; OptCredentials "key.json";
                  OptShowUserInfo]) = 1 /\
  update_calls (trace (main sample_world
                         [OptUserId "flaky"; OptCredentials "key.json";
                          OptShowUserInfo])) = [].
Proof.
  split; [reflexivity|]. split; [reflexivity|].
  exact (lookup_failures_conflated sample_world
           [OptUserId "flaky"; OptCredentials "key.json"; OptShowUserInfo]
           (sample_args "flaky" true) (OtherException "connection reset")
           eq_refl eq_refl eq_refl eq_refl).
Defined.

(** C9.  [reset_user_password] always returns: its outcome is never a
    raised exception nor an exit, and the value returned is [True]
    exactly when the update call succeeds, [False] for
    [UserNotFoundError] and for every other exception. *)
Theorem reset_user_password_total w user pw :
  outcome (reset_user_password w user pw)
    = Return (update_succeeds w user (default "password123" pw)) /\
  (forall e, outcome (reset_user_password w user pw) <> Raise e) /\
  (forall code, outcome (reset_user_password w user pw) <> Exit code) /\
  update_calls (trace (reset_user_password w user pw))
    = [EvUpdateUser user (default "password123" pw)].
Proof.
  assert (H : reset_user_password w user pw
              = reset_user_password w user (Some (default "password123" pw)))
    by (destruct pw; reflexivity).
  rewrite H, reset_user_password_run. unfold update_succeeds.
  destruct (update_user w user (default "password123" pw));
    repeat split; try reflexivity; intros ?; discriminate.
Qed.

(** C10.  [initialize_firebase] either returns, and then the
    initialisation succeeded, or leaves the process with status 1; and a
    lookup or update found in the trace of [main] comes after the
    [initialize_app] call of a successful initialisation, with no user
    operation before it. *)
Theorem user_ops_only_after_init w argv ev :
  In ev (trace (main w argv)) ->
  is_user_op ev = true ->
  (forall path,
      outcome (initialize_firebase w path)
      = if init_succeeds w path then Return tt else Exit 1) /\
  exists args cred t1 t2,
    parse_args argv = ret args /\
    init_succeeds w (credentials args) = true /\
    outcome (initialize_firebase w (credentials args)) = Return tt /\
    initialize_app w cred = Ok tt /\
    trace (main w argv) = (t1 ++ EvInitializeApp cred :: t2)%list /\
    user_ops t1 = [] /\
    In ev t2.
Proof.
  intros Hin Hop. split; [apply initialize_firebase_outcome|].
  destruct (parse_args_cases argv) as [[args Hparse]|(msg & code & H & _)].
  2: { unfold main in Hin. rewrite H in Hin. cbn in Hin.
       destruct Hin as [<-|[]]. discriminate Hop. }
  pose proof (main_runs w _ _ Hparse) as R.
  assert (Hops : In ev (user_ops (trace (main w argv))))
    by (apply List.filter_In; auto).
  destruct (init_succeeds w (credentials args)) eqn:Hinit.
  2: { rewrite (Run_init_failed _ _ _ R Hinit) in Hops. destruct Hops. }
  clear Hops. exists args.
  assert (Hdec : exists cred rest,
             initialize_app w cred = Ok tt /\
             trace (main w argv)
             = ((banner ++ [EvPathExists (credentials args);
                            EvCertificate (credentials args)])
                ++ EvInitializeApp cred
                :: EvPrint "✅ Firebase Admin SDK initialized successfully"
                :: rest)%list).
  { apply init_succeeds_inv in Hinit as (cred0 & Hp & Hc & Ha).
    revert R. generalize (main w argv). intros m R.
    destruct R as [Hpath|e' Hpath Hcert|cred e' Hpath Hcert Happ
                  |cred e' Hpath Hcert Happ _ Hget'
                  |cred e' Hpath Hcert Happ Hlook' Hupd
                  |cred r Hpath Hcert Happ Hlook' Hupd]; try congruence;
      exists cred; eexists; (split; [exact Happ|]);
      cbn [trace fst]; rewrite <- app_assoc; reflexivity. }
  destruct Hdec as (cred & rest & Happ & Htrace).
  exists cred. eexists. eexists.
  split; [exact Hparse|]. split; [exact Hinit|].
  split; [rewrite initialize_firebase_outcome, Hinit; reflexivity|].
  split; [exact Happ|]. split; [exact Htrace|]. split; [reflexivity|].
  rewrite Htrace in Hin. apply in_app_or in Hin as [Hin|Hin].
  - cbn in Hin. repeat (destruct Hin as [<-|Hin]; [discriminate Hop|]).
    destruct Hin.
  - destruct Hin as [<-|Hin]; [discriminate Hop|exact Hin].
Qed.

Lemma user_ops_only_after_init_witness :
  In (EvUpdateUser "u1" "password123")
     (trace (main sample_world [OptUserId "u1"; OptCredentials "key.json"])) /\
  exists args cred t1 t2,
    parse_args [OptUserId "u1"; OptCredentials "key.json"] = ret args /\
    init_succeeds sample_world (credentials args) = true /\
    outcome (initialize_firebase sample_world (credentials args)) = Return tt /\
    initialize_app sample_world cred = Ok tt /\
    trace (main sample_world [OptUserId "u1"; OptCredentials "key.json"])
      = (t1 ++ EvInitializeApp cred :: t2)%list /\
    user_ops t1 = [] /\
    In (EvUpdateUser "u1" "password123") t2.
Proof.
  assert (Hin : In (EvUpdateUser "u1" "password123")
                   (trace (main sample_world
                             [OptUserId "u1"; OptCredentials "key.json"])))
    by (cbn; tauto).
  split; [exact Hin|].
  exact (proj2 (user_ops_only_after_init sample_world
                  [OptUserId "u1"; OptCredentials "key.json"]
                  (EvUpdateUser "u1" "password123") Hin eq_refl)).
Defined.

(** ** Further properties of the script *)

(** *** The parser *)

Lemma consume_spec argv :
  forall ns,
    consume argv ns =
      if asks_help argv then ([EvUsage "help"], Exit 0)
      else ret {| p_user_id := match supplied_user_id argv with
                               | Some v => Some v
                               | None => p_user_id ns
                               end;
                  p_credentials := match supplied_credentials argv with
                                   | Some v => Some v
                                   | None => p_credentials ns
                                   end;
                  p_password := default (p_password ns) (supplied_password argv);
                  p_show_user_info := p_show_user_info ns || asks_user_info argv |}.
Proof.
  induction argv as [|o rest IH]; intros ns.
  - destruct ns. cbn. rewrite orb_false_r. reflexivity.
  - destruct o; cbn [consume]; [rewrite IH ..|reflexivity];
      unfold asks_help, asks_user_info; cbn;
      (match goal with
       | |- (if ?b then _ else _) = _ => destruct b; [reflexivity|]
       end).
    + destruct (supplied_user_id rest); reflexivity.
    + destruct (supplied_credentials rest); reflexivity.
    + destruct (supplied_password rest); reflexivity.
    + rewrite orb_true_r. reflexivity.
Qed.

Lemma parse_args_spec argv :
  parse_args argv =
    if asks_help argv then ([EvUsage "help"], Exit 0)
    else match supplied_user_id argv, supplied_credentials argv with
         | Some u, Some c =>
             ret {| user_id := u;
                    credentials := c;
                    password := default "password123" (supplied_password argv);
                    show_user_info := asks_user_info argv |}
         | _, _ => ([EvUsage "the following arguments are required"], Exit 2)
         end.
Proof.
  unfold parse_args. rewrite consume_spec.
  destruct (asks_help argv); [reflexivity|].
  rewrite bind_ret_l. cbn.
  destruct (supplied_user_id argv), (supplied_credentials argv); reflexivity.
Qed.





(** X3.  When the parser hands back a namespace, no help was asked for,
    the user identifier and the credential path are those of the last
    [-u] and [-c] on the command line, and the flag is set exactly when
    [--show-user-info] occurs. *)
Theorem parse_args_last_wins argv args :
  parse_args argv = ret args ->
  asks_help argv = false /\
  supplied_user_id argv = Some (user_id args) /\
  supplied_credentials argv = Some (credentials args) /\
  show_user_info args = asks_user_info argv.
Proof.
  rewrite parse_args_spec.
  destruct (asks_help argv); [discriminate|].
  destruct (supplied_user_id argv) as [u|]; [|discriminate].
  destruct (supplied_credentials argv) as [c|]; [|discriminate].
  intros [= <-]. repeat split; reflexivity.
Qed.

Lemma parse_args_last_wins_witness :
  parse_args [OptUserId "old"; OptShowUserInfo; OptCredentials "key.json";
              OptUserId "u1"]
    = ret (sample_args "u1" true) /\
  supplied_user_id [OptUserId "old"; OptShowUserInfo; OptCredentials "key.json";
                    OptUserId "u1"] = Some "u1".
Proof.
  split; [reflexivity|].
  exact (proj1 (proj2 (parse_args_last_wins
           [OptUserId "old"; OptShowUserInfo; OptCredentials "key.json";
            OptUserId "u1"] (sample_args "u1" true) eq_refl))).
Defined.

(** *** Initialisation *)



(** X5.  When the file exists but the initialisation fails, the failure
    is the certificate's or [initialize_app]'s; the last line printed
    carries the text of that exception, an application is created only
    from a certificate that loaded, and the process exits with status 1
    without any user operation. *)
Theorem init_error_reported w argv args :
  parse_args argv = ret args ->
  path_exists w (credentials args) = true ->
  init_succeeds w (credentials args) = false ->
  exists e,
    (Certificate w (credentials args) = Err e /\
     calls (trace (main w argv))
       = [EvPathExists (credentials args); EvCertificate (credentials args)]
     \/
     exists cred,
       Certificate w (credentials args) = Ok cred /\
       initialize_app w cred = Err e /\
       calls (trace (main w argv))
         = [EvPathExists (credentials args); EvCertificate (credentials args);
            EvInitializeApp cred]) /\
    last (printed (trace (main w argv)))
      = Some ("❌ Error initializing Firebase: " ++ exn_str e) /\
    exit_status (main w argv) = 1.
Proof.
  intros Hparse Hfile Hinit. pose proof (main_runs w _ _ Hparse) as R.
  revert R. generalize (main w argv). intros m R.
  run_cases R; try congruence;
    try (rewrite (init_succeeds_intro _ _ _ Hpath Hcert Happ) in Hinit;
         discriminate Hinit).
  - exists e'. split; [left; split; [exact Hcert|reflexivity]|].
    split; reflexivity.
  - exists e'. split; [right; exists cred; repeat split; assumption|].
    split; reflexivity.
Qed.

Lemma init_error_reported_witness :
  parse_args [OptUserId "u1"; OptCredentials "key.json"]
    = ret (sample_args "u1" false) /\
  path_exists bad_key_world "key.json" = true /\
  init_succeeds bad_key_world "key.json" = false /\
  exists e,
    last (printed (trace (main bad_key_world
                            [OptUserId "u1"; OptCredentials "key.json"])))
      = Some ("❌ Error initializing Firebase: " ++ exn_str e) /\
    exit_status (main bad_key_world [OptUserId "u1"; OptCredentials "key.json"])
      = 1.
Proof.
  split; [reflexivity|]. split; [reflexivity|]. split; [reflexivity|].
  destruct (init_error_reported bad_key_world
              [OptUserId "u1"; OptCredentials "key.json"]
              (sample_args "u1" false) eq_refl eq_refl eq_refl)
    as (e & _ & Hlast & Hexit).
  exists e. split; [exact Hlast|exact Hexit].
Defined.

(** *** The lookup *)

(** X6.  [get_user_info] always returns: it makes exactly one lookup
    call, never raises and never exits; the value it returns passes the
    test [if user_info:] exactly when the lookup succeeded; it prints
    nothing for a user that exists or is unknown, and one line for any
    other error. *)
Theorem get_user_info_total w user :
  exists d,
    outcome (get_user_info w user) = Return d /\
    truthy d = user_exists w user /\
    calls (trace (get_user_info w user)) = [EvGetUser user] /\
    printed (trace (get_user_info w user))
      = match get_user w user with
        | Ok _ => []
        | Err e => lookup_error_lines e
        end.
Proof.
  unfold user_exists. destruct (get_user w user) as [r|e] eqn:Hget.
  - destruct (get_user_info_found w _ _ Hget) as (d & -> & Ht & _).
    exists (Some d). repeat split; try reflexivity. exact Ht.
  - rewrite (get_user_info_failed w _ _ Hget). exists None.
    destruct e; repeat split; reflexivity.
Qed.

(** X7.  For a user the SDK returns, the dictionary has exactly the five
    keys uid, email, display_name, disabled and email_verified, each
    holding the record's attribute (an absent e-mail or display name as
    [None]). *)
Theorem profile_dict_shape w user r :
  get_user w user = Ok r ->
  exists d,
    outcome (get_user_info w user) = Return (Some d) /\
    dom d = profile_keys /\
    d !! "uid" = Some (PyStr (uid r)) /\
    d !! "email" = Some (of_opt (email r)) /\
    d !! "display_name" = Some (of_opt (display_name r)) /\
    d !! "disabled" = Some (PyBool (disabled r)) /\
    d !! "email_verified" = Some (PyBool (email_verified r)).
Proof.
  intros Hget. unfold get_user_info. rewrite Hget. cbn -[insert].
  eexists. split; [reflexivity|].
  split.
  - rewrite !dom_insert_L, dom_empty_L. unfold profile_keys. set_solver.
  - repeat split; vm_compute; reflexivity.
Qed.

Lemma profile_dict_shape_witness :
  get_user sample_world "u1" = Ok alice /\
  exists d,
    outcome (get_user_info sample_world "u1") = Return (Some d) /\
    dom d = profile_keys /\
    d !! "email" = Some (PyStr "alice@example.org") /\
    d !! "display_name" = Some PyNone.
Proof.
  split; [reflexivity|].
  destruct (profile_dict_shape sample_world "u1" alice eq_refl)
    as (d & Hd & Hdom & _ & Hemail & Hname & _).
  exists d. repeat split; assumption.
Defined.

(** *** The whole run *)

(** X8.  For a user that exists, [--show-user-info] changes neither the
    exit status nor the update call: the run with the flag is the run
    without it, with the announcement, one lookup call and the four
    profile lines inserted before the reset. *)
Theorem flag_only_adds_lookup w argv1 argv2 args1 args2 r :
  parse_args argv1 = ret args1 ->
  parse_args argv2 = ret args2 ->
  user_id args2 = user_id args1 ->
  credentials args2 = credentials args1 ->
  password args2 = password args1 ->
  show_user_info args1 = false ->
  show_user_info args2 = true ->
  init_succeeds w (credentials args1) = true ->
  get_user w (user_id args1) = Ok r ->
  exit_status (main w argv2) = exit_status (main w argv1) /\
  update_calls (trace (main w argv2)) = update_calls (trace (main w argv1)) /\
  exists before after,
    trace (main w argv1) = (before ++ after)%list /\
    trace (main w argv2)
    = (before ++
       [getting (user_id args1); EvGetUser (user_id args1)] ++
       map EvPrint (profile_lines r) ++ after)%list /\
    update_calls before = [].
Proof.
  intros Hp1 Hp2 Hu Hc Hpw Hs1 Hs2 Hinit Hget.
  destruct args1 as [u c p s1], args2 as [u2 c2 p2 s2].
  cbn [user_id credentials password show_user_info] in *. subst.
  pose proof (main_runs w _ _ Hp1) as R1.
  pose proof (main_runs w _ _ Hp2) as R2.
  pose proof (Run_exit_status _ _ _ R1) as He1.
  pose proof (Run_exit_status _ _ _ R2) as He2.
  pose proof (Run_update_calls _ _ _ R1) as Hc1.
  pose proof (Run_update_calls _ _ _ R2) as Hc2.
  unfold lookup_passes, user_exists in He1, He2, Hc1, Hc2.
  cbn [user_id credentials password show_user_info] in He1, He2, Hc1, Hc2.
  rewrite Hget in He2, Hc2.
  split; [congruence|]. split; [congruence|].
  clear He1 He2 Hc1 Hc2.
  apply init_succeeds_inv in Hinit as (cred0 & Hpath0 & Hcert0 & Happ0).
  exists (banner ++ init_events c cred0)%list.
  revert R1 R2. generalize (main w argv1), (main w argv2). intros m1 m2 R1 R2.
  destruct R1 as [Hpath1|e1 Hpath1 Hcert1|cred1 e1 Hpath1 Hcert1 Happ1
                 |cred1 e1 Hpath1 Hcert1 Happ1 Hshow1 Hget1
                 |cred1 e1 Hpath1 Hcert1 Happ1 _ Hupd1
                 |cred1 r1 Hpath1 Hcert1 Happ1 _ Hupd1];
    cbn [user_id credentials password show_user_info] in *; try congruence;
    (assert (cred1 = cred0) as -> by congruence);
    run_cases R2;
    cbn [user_id credentials password show_user_info] in *; try congruence;
    (assert (cred = cred0) as -> by congruence);
    try (assert (e' = e1) as -> by congruence);
    cbn [trace fst]; unfold lookup_events;
    cbn [user_id credentials password show_user_info]; rewrite Hget;
    eexists; (split; [rewrite <- app_assoc; reflexivity|]);
    (split; [rewrite <- !app_assoc; cbn [app]; reflexivity|reflexivity]).
Qed.

Lemma flag_only_adds_lookup_witness :
  parse_args [OptUserId "u1"; OptCredentials "key.json"]
    = ret (sample_args "u1" false) /\
  parse_args [OptUserId "u1"; OptCredentials "key.json"; OptShowUserInfo]
    = ret (sample_args "u1" true) /\
  get_user sample_world "u1" = Ok alice /\
  exit_status (main sample_world
                 [OptUserId "u1"; OptCredentials "key.json"; OptShowUserInfo])
    = exit_status (main sample_world [OptUserId "u1"; OptCredentials "key.json"]) /\
  update_calls (trace (main sample_world
                         [OptUserId "u1"; OptCredentials "key.json";
                          OptShowUserInfo]))
    = update_calls (trace (main sample_world
                             [OptUserId "u1"; OptCredentials "key.json"])).
Proof.
  split; [reflexivity|]. split; [reflexivity|]. split; [reflexivity|].
  destruct (flag_only_adds_lookup sample_world
              [OptUserId "u1"; OptCredentials "key.json"]
              [OptUserId "u1"; OptCredentials "key.json"; OptShowUserInfo]
              (sample_args "u1" false) (sample_args "u1" true) alice
              eq_refl eq_refl eq_refl eq_refl eq_refl eq_refl eq_refl
              eq_refl eq_refl) as (Hexit & Hupd & _).
  split; [exact Hexit|exact Hupd].
Defined.

(** X9.  A run that fails does not echo the password: two command lines
    that differ only in the password, on which the update fails with the
    same exception, print the same lines. *)
Theorem failed_run_hides_password w argv1 argv2 args1 args2 e :
  parse_args argv1 = ret args1 ->
  parse_args argv2 = ret args2 ->
  user_id args2 = user_id args1 ->
  credentials args2 = credentials args1 ->
  show_user_info args2 = show_user_info args1 ->
  update_user w (user_id args1) (password args1) = Err e ->
  update_user w (user_id args1) (password args2) = Err e ->
  printed (trace (main w argv1)) = printed (trace (main w argv2)).
Proof.
  intros Hp1 Hp2 Hu Hc Hs Hupd1 Hupd2.
  destruct args1 as [u c p1 s], args2 as [u2 c2 p2 s2].
  cbn [user_id credentials password show_user_info] in *. subst.
  pose proof (main_runs w _ _ Hp1) as R1.
  pose proof (main_runs w _ _ Hp2) as R2.
  revert R1 R2. generalize (main w argv1), (main w argv2). intros m1 m2 R1 R2.
  destruct R1 as [Hpath1|e1 Hpath1 Hcert1|cred1 e1 Hpath1 Hcert1 Happ1
                 |cred1 e1 Hpath1 Hcert1 Happ1 Hshow1 Hget1
                 |cred1 e1 Hpath1 Hcert1 Happ1 Hlook1 Hupd1'
                 |cred1 r1 Hpath1 Hcert1 Happ1 Hlook1 Hupd1'];
    run_cases R2;
    unfold lookup_passes, user_exists in *;
    cbn [user_id credentials password show_user_info] in *;
    try congruence;
    try (rewrite Hshow1, Hget1 in Hlook'; discriminate Hlook');
    try (rewrite Hshow', Hget' in Hlook1; discriminate Hlook1);
    cbn [trace fst]; unfold lookup_events;
    cbn [user_id credentials password show_user_info];
    try (assert (e' = e1) as -> by congruence);
    rewrite ?printed_app; reflexivity.
Qed.

Lemma failed_run_hides_password_witness :
  parse_args [OptUserId "ghost"; OptCredentials "key.json"; OptPassword "one"]
    = ret {| user_id := "ghost"; credentials := "key.json";
             password := "one"; show_user_info := false |} /\
  parse_args [OptUserId "ghost"; OptCredentials "key.json"; OptPassword "two"]
    = ret {| user_id := "ghost"; credentials := "key.json";
             password := "two"; show_user_info := false |} /\
  update_user sample_world "ghost" "one"
    = Err (UserNotFoundError "No user record found") /\
  update_user sample_world "ghost" "two"
    = Err (UserNotFoundError "No user record found") /\
  printed (trace (main sample_world
                    [OptUserId "ghost"; OptCredentials "key.json";
                     OptPassword "one"]))
  = printed (trace (main sample_world
                      [OptUserId "ghost"; OptCredentials "key.json";
                       OptPassword "two"])).
Proof.
  split; [reflexivity|]. split; [reflexivity|].
  split; [reflexivity|]. split; [reflexivity|].
  exact (failed_run_hides_password sample_world
           [OptUserId "ghost"; OptCredentials "key.json"; OptPassword "one"]
           [OptUserId "ghost"; OptCredentials "key.json"; OptPassword "two"]
           _ _ (UserNotFoundError "No user record found")
           eq_refl eq_refl eq_refl eq_refl eq_refl eq_refl eq_refl).
Defined.

(** X10.  The line ["Password reset completed successfully!"] is printed
    exactly on the runs that reach the end of the script, and on those
    the update call was issued and succeeded. *)
Theorem success_line_iff_updated w argv :
  (In completed_line (printed (trace (main w argv)))
   <-> outcome (main w argv) = Return tt) /\
  (outcome (main w argv) = Return tt ->
   exists args r,
     parse_args argv = ret args /\
     update_user w (user_id args) (password args) = Ok r /\
     In (EvUpdateUser (user_id args) (password args)) (trace (main w argv))).
Proof.
  destruct (parse_args_cases argv) as [[args Hparse]|(msg & code & H & _)].
  2: { unfold main. rewrite H. cbn.
       split; [split; [intros []|discriminate]|discriminate]. }
  pose proof (main_runs w _ _ Hparse) as R.
  assert (Hargs : forall m, Run w args m ->
            (In completed_line (printed (trace m)) <-> outcome m = Return tt) /\
            (outcome m = Return tt ->
             exists r, update_user w (user_id args) (password args) = Ok r /\
                       In (EvUpdateUser (user_id args) (password args)) (trace m))).
  { clear R. intros m R.
    run_cases R; cbn [trace outcome fst snd];
      unfold lookup_events, lookup_error_lines, update_error_line;
      try destruct (is_not_found e');
      try destruct (show_user_info args);
      try destruct (get_user w (user_id args)).
    all: first
      [ solve [ split;
                [split;
                 [intros Hin; cbn in Hin;
                  repeat (destruct Hin as [Hin|Hin]; [discriminate Hin|]);
                  destruct Hin
                 |discriminate]
                |discriminate] ]
      | split;
        [split;
         [intros _; reflexivity
         |intros _; cbn; repeat (try (left; reflexivity); right)]
        |intros _; exists r'; split;
         [exact Hupd'|cbn; repeat (try (left; reflexivity); right)]] ]. }
  destruct (Hargs _ R) as [Hiff Hupd].
  split; [exact Hiff|].
  intros Hout. destruct (Hupd Hout) as (r & Hr & Hin).
  exists args, r. auto.
Qed.

Lemma success_line_iff_updated_witness :
  In completed_line
     (printed (trace (main sample_world
                        [OptUserId "u1"; OptCredentials "key.json"]))) /\
  exists args r,
    parse_args [OptUserId "u1"; OptCredentials "key.json"] = ret args /\
    update_user sample_world (user_id args) (password args) = Ok r /\
    In (EvUpdateUser (user_id args) (password args))
       (trace (main sample_world [OptUserId "u1"; OptCredentials "key.json"])).
Proof.
  destruct (success_line_iff_updated sample_world
              [OptUserId "u1"; OptCredentials "key.json"]) as [Hiff Hupd].
  split; [exact (proj2 Hiff eq_refl)|exact (Hupd eq_refl)].
Defined.
